(** * The RDS connectivity probe of [app/backend/app.py]

    A shallow embedding of the Flask application and a verification of
    its request handler [home].

    The handler is effectful Python: it reads module globals, calls
    [mysql.connector.connect], catches what that call raises and
    formats the caught exception.  It is embedded as a tree of effects
    ([prog]) that is run against the module namespace and an arbitrary
    model of the connector and the network behind it. *)

From Stdlib Require Import ZArith NArith Ascii String List.
From stdpp Require Import base option list gmap strings pretty.

Local Open Scope string_scope.
Local Open Scope list_scope.
Local Open Scope Z_scope.

Set Warnings "-register-all".

(** ** Python values *)

(** A Python [str] is a sequence of Unicode code points; slicing and
    [len] count code points, not bytes.  A [str] can hold lone
    surrogates (U+D800 to U+DFFF), which no UTF-8 encoder accepts. *)
Abbreviation str := (list N) (only parsing).

(** The code points of an ASCII literal. *)
Definition lit (s : string) : str :=
  N_of_ascii <$> list_ascii_of_string s.

(** [s[:n]] for a non-negative [n]: the first [n] characters, or all of
    [s] when it is shorter. *)
Definition slice_to (n : nat) (s : str) : str := take n s.

Inductive value : Type :=
| VNone
| VStr (s : str)
| VInt (z : Z)
| VConn (id : N).

#[global] Instance value_eq_dec : EqDecision value.
Proof. solve_decision. Defined.

(** An exception object: the method resolution order of its class (the
    names of the class and of all its bases), the string [str()]
    returns for it, and, for an object whose [__str__] fails, the
    exception that the call of [str()] raises instead of returning. *)
Inductive exn : Type := Exn {
  exc_mro : list string;
  exc_str : list N;
  exc_str_raises : option exn
}.

(** [isinstance(e, cls)], which is the test an [except cls] clause
    makes. *)
Definition isinstance (e : exn) (cls : string) : bool :=
  bool_decide (cls ∈ exc_mro e).

Inductive outcome (A : Type) : Type :=
| Returned (a : A)
| Raised (e : exn).
Arguments Returned {A} a.
Arguments Raised {A} e.

(** The call [str(e)]. *)
Definition str_outcome (e : exn) : outcome (list N) :=
  match exc_str_raises e with
  | Some e' => Raised e'
  | None => Returned (exc_str e)
  end.

(** What [LOAD_GLOBAL] raises for an unbound name. *)
Definition NameError (name : string) : exn :=
  {| exc_mro := ["NameError"; "Exception"; "BaseException"; "object"];
     exc_str := lit ("name '" +:+ name +:+ "' is not defined");
     exc_str_raises := None |}.

(** *** Encoding a [str] as UTF-8 *)

Definition is_surrogate (c : N) : bool :=
  ((0xD800 <=? c) && (c <=? 0xDFFF))%N.

Definition utf8_encodable (s : str) : bool :=
  forallb (λ c, negb (is_surrogate c)) s.

Fixpoint leading_surrogates (s : str) : nat :=
  match s with
  | c :: s' => if is_surrogate c then S (leading_surrogates s') else O
  | [] => O
  end.

(** The first run of surrogates in [s], counting positions from [i]:
    the position of its first character, that character, and the
    position of its last character. *)
Fixpoint first_surrogates (s : str) (i : nat) : option (nat * N * nat) :=
  match s with
  | [] => None
  | c :: s' =>
      if is_surrogate c then Some (i, c, (i + leading_surrogates s')%nat)
      else first_surrogates s' (S i)
  end.

Definition hex_digit (d : N) : ascii :=
  default "0"%char (String.get (N.to_nat d) "0123456789abcdef").

Definition hex4 (c : N) : string :=
  String (hex_digit (c / 4096 mod 16))
    (String (hex_digit (c / 256 mod 16))
       (String (hex_digit (c / 16 mod 16))
          (String (hex_digit (c mod 16)) EmptyString)))%N.

(** What [s.encode("utf-8")] raises for a run of surrogates. *)
Definition UnicodeEncodeError (start : nat) (c : N) (last : nat) : exn :=
  {| exc_mro := ["UnicodeEncodeError"; "UnicodeError"; "ValueError";
                 "Exception"; "BaseException"; "object"];
     exc_str :=
       lit (if bool_decide (last = start)
            then "'utf-8' codec can't encode character '\u" +:+ hex4 c
                 +:+ "' in position " +:+ pretty start
                 +:+ ": surrogates not allowed"
            else "'utf-8' codec can't encode characters in position "
                 +:+ pretty start +:+ "-" +:+ pretty last
                 +:+ ": surrogates not allowed");
     exc_str_raises := None |}.

(** ** Effects and programs *)

(** What a view function can do to the world outside its own frame:
    read or rebind a module global, open a connection through
    [mysql.connector.connect] with keyword arguments, run a statement
    on an open connection, close it. *)
Inductive effect : Type :=
| LoadGlobal (name : string)
| StoreGlobal (name : string) (v : value)
| MySQLConnect (kwargs : gmap string value)
| CursorExecute (conn : value) (operation : str)
| ConnectionClose (conn : value).

Definition is_db_effect (ef : effect) : bool :=
  match ef with
  | MySQLConnect _ | CursorExecute _ _ | ConnectionClose _ => true
  | LoadGlobal _ | StoreGlobal _ _ => false
  end.

Definition is_store (ef : effect) : bool :=
  match ef with
  | StoreGlobal _ _ => true
  | _ => false
  end.

Inductive prog (A : Type) : Type :=
| Ret (a : A)
| Raise (e : exn)
| Vis (ef : effect) (k : outcome value → prog A).
Arguments Ret {A} a.
Arguments Raise {A} e.
Arguments Vis {A} ef k.

Fixpoint bind {A B : Type} (p : prog A) (f : A → prog B) : prog B :=
  match p with
  | Ret a => f a
  | Raise e => Raise e
  | Vis ef k => Vis ef (λ r, bind (k r) f)
  end.

#[global] Instance prog_ret : MRet prog := @Ret.
#[global] Instance prog_bind : MBind prog := λ A B f p, bind p f.

(** A computation without effects that returns or raises. *)
Definition of_outcome {A : Type} (o : outcome A) : prog A :=
  match o with
  | Returned a => Ret a
  | Raised e => Raise e
  end.

(** An effect whose exception, if any, is raised at the call site. *)
Definition call (ef : effect) : prog value :=
  Vis ef (λ r, match r with
               | Returned v => Ret v
               | Raised e => Raise e
               end).

Definition load_global (name : string) : prog value := call (LoadGlobal name).

(** [str(e)], which runs the [__str__] of the exception. *)
Definition py_str (e : exn) : prog (list N) := of_outcome (str_outcome e).

(** [try: body / except cls as e: handler e].  An exception that is
    not an instance of [cls] passes through, and so does whatever the
    handler raises. *)
Fixpoint try_except {A : Type} (body : prog A) (cls : string)
    (handler : exn → prog A) : prog A :=
  match body with
  | Ret a => Ret a
  | Raise e => if isinstance e cls then handler e else Raise e
  | Vis ef k => Vis ef (λ r, try_except (k r) cls handler)
  end.

(** ** Running a program *)

Record result (W A : Type) : Type := Result {
  res : outcome A;
  globals_after : gmap string value;
  world_after : W;
  trace : list (effect * outcome value)
}.
Arguments Result {W A} _ _ _ _.
Arguments res {W A} _.
Arguments globals_after {W A} _.
Arguments world_after {W A} _.
Arguments trace {W A} _.

Section Run.
(** The connector library, the network and the database server are
    not part of the program: [W] is their state and [mysql] what a
    database effect does in it. *)
Context {W : Type} (mysql : effect → W → outcome value * W).

Definition perform (ef : effect) (ns : gmap string value) (w : W)
    : outcome value * gmap string value * W :=
  match ef with
  | LoadGlobal name =>
      match ns !! name with
      | Some v => (Returned v, ns, w)
      | None => (Raised (NameError name), ns, w)
      end
  | StoreGlobal name v => (Returned VNone, <[name := v]> ns, w)
  | _ => let '(r, w') := mysql ef w in (r, ns, w')
  end.

Fixpoint run {A : Type} (p : prog A) (ns : gmap string value) (w : W)
    : result W A :=
  match p with
  | Ret a => Result (Returned a) ns w []
  | Raise e => Result (Raised e) ns w []
  | Vis ef k =>
      let '(r, ns', w') := perform ef ns w in
      let x := run (k r) ns' w' in
      Result (res x) (globals_after x) (world_after x) ((ef, r) :: trace x)
  end.
End Run.

(** ** The module [app.py] *)

(** [os.environ.get(key, default)] *)
Definition environ_get (environ : gmap string (list N)) (key : string)
    (dflt : str) : str :=
  default dflt (environ !! key).

Definition default_host : str := lit "your-db-endpoint.rds.amazonaws.com".

(** The module namespace after the top-level assignments have run, in
    the order of the source.  The namespace holds the data globals of
    the module.  The other names the handler looks up ([mysql], bound
    at import, and the builtins [Exception] and [str]) are taken as
    bound to what they are bound to at import; [app] and [home] are
    never read by the handler. *)
Definition module_globals (environ : gmap string (list N))
    : gmap string value :=
  <["RDS_DB" := VStr (lit "testdb")]>
  (<["RDS_PASS" := VStr (lit "MyDBPass123!")]>
  (<["RDS_USER" := VStr (lit "admin")]>
  (<["RDS_PORT" := VInt 3306]>
  (<["RDS_HOST" := VStr (environ_get environ "RDS_HOST" default_host)]> ∅)))).

(** U+2705, then the text. *)
Definition success_message : str :=
  0x2705%N :: lit " Connected to RDS MySQL instance".

(** U+26A0 U+FE0F, then the text. *)
Definition failure_prefix : str :=
  [0x26A0%N; 0xFE0F%N]
    ++ lit " Backend is running but RDS connection failed: ".

(** [str(e)[:50]], when [str(e)] returns. *)
Definition error_detail (e : exn) : str := slice_to 50 (exc_str e).

(** The f-string of the handler, when [str(e)] returns. *)
Definition failure_message (e : exn) : str :=
  failure_prefix ++ error_detail e ++ lit "...".

#[global] Arguments success_message : simpl never.
#[global] Arguments failure_prefix : simpl never.
#[global] Arguments failure_message : simpl never.

(** The body of the [try]. *)
Definition home_body : prog (list N) :=
  host ← load_global "RDS_HOST";
  user ← load_global "RDS_USER";
  password ← load_global "RDS_PASS";
  port ← load_global "RDS_PORT";
  conn ← call (MySQLConnect {[ "host" := host; "user" := user;
                               "password" := password; "port" := port ]});
  Ret success_message.

(** The body of the [except]: the call of [str(e)] is made here,
    outside the [try]. *)
Definition home_handler (e : exn) : prog (list N) :=
  s ← py_str e;
  Ret (failure_prefix ++ slice_to 50 s ++ lit "...").

Definition home : prog (list N) :=
  try_except home_body "Exception" home_handler.

(** ** Flask: routing, response construction, the request loop *)

Record request : Type := Request {
  req_method : string;
  req_path : string;
  req_args : list (string * list N);
  req_headers : list (string * list N);
  req_data : list N
}.

Record response : Type := Response {
  status_code : Z;
  mimetype : string;
  text : list N
}.

#[global] Instance response_eq_dec : EqDecision response.
Proof. solve_decision. Defined.

(** What Flask makes of a [str] that a view function returns: a 200
    response of type [text/html] whose body is the UTF-8 encoding of
    the string, which fails on a string with a surrogate. *)
Definition response_of (rv : str) : outcome response :=
  match first_surrogates rv 0 with
  | None => Returned {| status_code := 200; mimetype := "text/html";
                        text := rv |}
  | Some (start, c, last) => Raised (UnicodeEncodeError start c last)
  end.

Definition make_response (rv : str) : prog response :=
  of_outcome (response_of rv).

Section Flask.
(** The HTML page the framework renders for an HTTP error status is a
    document that opens with [<!]; [error_page code] is what follows
    these two characters. *)
Context (error_page : Z → list N).

Definition http_error (code : Z) : response :=
  {| status_code := code; mimetype := "text/html";
     text := lit "<!" ++ error_page code |}.

(** [@app.route("/")] registers [home] for the path [/] with the
    default methods: GET, and with it HEAD and an automatic OPTIONS.
    The view function is called with no argument. *)
Definition full_dispatch_request (req : request) : prog response :=
  if bool_decide (req_path req = "/") then
    if bool_decide (req_method req = "GET")
       || bool_decide (req_method req = "HEAD") then
      rv ← home; make_response rv
    else if bool_decide (req_method req = "OPTIONS") then
      Ret {| status_code := 200; mimetype := "text/html"; text := [] |}
    else Ret (http_error 405)
  else Ret (http_error 404).

(** The answer to a HEAD request has the status and the headers of
    the response and no body. *)
Definition without_body (resp : response) : response :=
  {| status_code := status_code resp; mimetype := mimetype resp;
     text := [] |}.

(** An [Exception] that escapes the view or the construction of the
    response becomes a 500 response; anything else unwinds the request
    loop. *)
Definition wsgi_app (req : request) : prog response :=
  resp ← try_except (full_dispatch_request req) "Exception"
           (λ _, Ret (http_error 500));
  Ret (if bool_decide (req_method req = "HEAD") then without_body resp
       else resp).

Context {W : Type} (mysql : effect → W → outcome value * W).

(** [app.run(...)]: requests are served one after the other for as
    long as no exception reaches the loop. *)
Fixpoint serve (reqs : list request) (ns : gmap string value) (w : W)
    : list (outcome response) * gmap string value * W :=
  match reqs with
  | [] => ([], ns, w)
  | req :: reqs' =>
      let x := run mysql (wsgi_app req) ns w in
      match res x with
      | Returned _ =>
          let '(rs, ns', w') :=
            serve reqs' (globals_after x) (world_after x) in
          (res x :: rs, ns', w')
      | Raised _ => ([res x], globals_after x, world_after x)
      end
  end.
End Flask.

(** ** Exceptions and a scripted connector, for concrete runs *)

Definition InterfaceError (msg : str) : exn :=
  {| exc_mro := ["InterfaceError"; "Error"; "Exception"; "BaseException";
                 "object"];
     exc_str := msg;
     exc_str_raises := None |}.

Definition KeyboardInterrupt : exn :=
  {| exc_mro := ["KeyboardInterrupt"; "BaseException"; "object"];
     exc_str := [];
     exc_str_raises := None |}.

Definition TimeoutError (msg : str) : exn :=
  {| exc_mro := ["TimeoutError"; "OSError"; "Exception"; "BaseException";
                 "object"];
     exc_str := msg;
     exc_str_raises := None |}.

Definition TypeError (msg : str) : exn :=
  {| exc_mro := ["TypeError"; "Exception"; "BaseException"; "object"];
     exc_str := msg;
     exc_str_raises := None |}.

(** The world is the list of outcomes the next database effects will
    have; once it is used up the server is gone. *)
Definition scripted (ef : effect) (w : list (outcome value))
    : outcome value * list (outcome value) :=
  match w with
  | o :: w' => (o, w')
  | [] =>
      (Raised (InterfaceError (lit "2003: Can't connect to MySQL server")),
       [])
  end.

(** The server refuses the connection: a message of 86 characters. *)
Definition refused : exn :=
  InterfaceError
    (lit ("2003: Can't connect to MySQL server on "
          +:+ "'your-db-endpoint.rds.amazonaws.com:3306' (111)")).

(** The socket times out: a message of 9 characters. *)
Definition timed_out : exn := TimeoutError (lit "timed out").

(** [RDS_HOST] was set to the single byte FF, which [os.environ]
    decodes to the lone surrogate U+DCFF. *)
Definition undecodable_environ : gmap string (list N) :=
  {[ "RDS_HOST" := [0xDCFF%N] ]}.

(** A connection error whose message names that host. *)
Definition unresolved : exn :=
  InterfaceError
    (lit "2003: Can't connect to MySQL server on '" ++ [0xDCFF%N]
       ++ lit ":3306' (-2 Name or service not known)").

(** An error whose text begins with two lone surrogates. *)
Definition garbled : exn :=
  InterfaceError ([0xDC80%N; 0xDCFE%N] ++ lit " is not a valid host").

(** An exception whose [__str__] does not return a string. *)
Definition unprintable : exn :=
  {| exc_mro := ["Error"; "Exception"; "BaseException"; "object"];
     exc_str := [];
     exc_str_raises :=
       Some (TypeError (lit "__str__ returned non-string (type NoneType)")) |}.

(** The keyword arguments of the connect call when [RDS_HOST] is not
    in the environment. *)
Definition default_kwargs : gmap string value :=
  {[ "host" := VStr default_host; "user" := VStr (lit "admin");
     "password" := VStr (lit "MyDBPass123!"); "port" := VInt 3306 ]}.

Definition undecodable_kwargs : gmap string value :=
  {[ "host" := VStr [0xDCFF%N]; "user" := VStr (lit "admin");
     "password" := VStr (lit "MyDBPass123!"); "port" := VInt 3306 ]}.

Definition plain_page (code : Z) : str := [].

Definition get_root : request :=
  {| req_method := "GET"; req_path := "/"; req_args := [];
     req_headers := []; req_data := [] |}.

(** A GET / that carries a query string, a header and a body. *)
Definition get_root_with_parameters : request :=
  {| req_method := "GET"; req_path := "/";
     req_args := [("host", lit "db.example.org")];
     req_headers := [("X-Forwarded-Host", lit "db.example.org")];
     req_data := lit "RDS_HOST=db.example.org" |}.

(** ** Which effects a program can perform *)

(** [performs_only P p]: on every path through [p], whatever the
    effects answer, every effect satisfies [P]. *)
Inductive performs_only {A : Type} (P : effect → Prop) : prog A → Prop :=
| performs_only_Ret a : performs_only P (Ret a)
| performs_only_Raise e : performs_only P (Raise e)
| performs_only_Vis ef k :
    P ef → (∀ r, performs_only P (k r)) → performs_only P (Vis ef k).

(** The effects of [home]: reads of four globals, and one connect with
    the four keyword arguments [host], [user], [password], [port]. *)
Definition home_effect (ef : effect) : Prop :=
  match ef with
  | LoadGlobal name =>
      name ∈ ["RDS_HOST"; "RDS_USER"; "RDS_PASS"; "RDS_PORT"]
  | MySQLConnect kwargs =>
      ∃ host user password port,
        kwargs = {[ "host" := host; "user" := user;
                    "password" := password; "port" := port ]}
  | StoreGlobal _ _ | CursorExecute _ _ | ConnectionClose _ => False
  end.

(** The database effects in a trace. *)
Definition db_events (t : list (effect * outcome value))
    : list (effect * outcome value) :=
  List.filter (λ x, is_db_effect x.1) t.

Definition is_returned {A : Type} (o : outcome A) : bool :=
  match o with
  | Returned _ => true
  | Raised _ => false
  end.

(** Two outcomes of a connect call that agree on what [home] can see:
    both are connections, or both are exceptions with the same string
    form, that is, for which [str()] does the same. *)
Definition same_outcome (r1 r2 : outcome value) : Prop :=
  match r1, r2 with
  | Returned _, Returned _ => True
  | Raised e1, Raised e2 => str_outcome e1 = str_outcome e2
  | _, _ => False
  end.

(** The exception of a failed call, if any, is one that
    [except Exception] catches. *)
Definition catchable (r : outcome value) : Prop :=
  match r with
  | Returned _ => True
  | Raised e => isinstance e "Exception" = true
  end.

(** ** One run of [home] *)

Definition connect_effect (host user password port : value) : effect :=
  MySQLConnect {[ "host" := host; "user" := user;
                  "password" := password; "port" := port ]}.

Definition home_loads (host user password port : value)
    : list (effect * outcome value) :=
  [ (LoadGlobal "RDS_HOST", Returned host);
    (LoadGlobal "RDS_USER", Returned user);
    (LoadGlobal "RDS_PASS", Returned password);
    (LoadGlobal "RDS_PORT", Returned port) ].

(** What the body of the [except] comes to for a caught exception. *)
Definition handler_outcome (e : exn) : outcome (list N) :=
  match str_outcome e with
  | Returned s => Returned (failure_prefix ++ slice_to 50 s ++ lit "...")
  | Raised e' => Raised e'
  end.

(** What [home] comes to for an outcome of its connect call. *)
Definition home_outcome (r : outcome value) : outcome (list N) :=
  match r with
  | Returned _ => Returned success_message
  | Raised e => if isinstance e "Exception" then handler_outcome e else Raised e
  end.

(** The connect call of a request served from the namespace of a
    freshly imported module. *)
Definition probe (environ : gmap string (list N)) : effect :=
  connect_effect (VStr (environ_get environ "RDS_HOST" default_host))
                 (VStr (lit "admin")) (VStr (lit "MyDBPass123!"))
                 (VInt 3306).

Definition probe_loads (environ : gmap string (list N))
    : list (effect * outcome value) :=
  home_loads (VStr (environ_get environ "RDS_HOST" default_host))
             (VStr (lit "admin")) (VStr (lit "MyDBPass123!"))
             (VInt 3306).

(** What Flask makes of what the view function comes to. *)
Definition finalize (error_page : Z → list N) (o : outcome (list N))
    : outcome response :=
  match (match o with
         | Returned rv => response_of rv
         | Raised e => Raised e
         end) with
  | Returned resp => Returned resp
  | Raised e =>
      if isinstance e "Exception" then Returned (http_error error_page 500)
      else Raised e
  end.

(** The response to a GET / for an outcome of the connect call. *)
Definition wsgi_outcome (error_page : Z → list N) (r : outcome value)
    : outcome response :=
  finalize error_page (home_outcome r).

(** ** Routing and successive requests *)

(** The requests that the rule of [@app.route("/")] hands to [home]. *)
Definition routed_to_home (req : request) : bool :=
  bool_decide (req_path req = "/")
  && (bool_decide (req_method req = "GET")
      || bool_decide (req_method req = "HEAD")).


(** * Verification *)

(** ** Which effects a program can perform *)

Lemma performs_only_bind {A B} (P : effect → Prop) (p : prog A)
    (f : A → prog B) :
  performs_only P p → (∀ a, performs_only P (f a)) →
  performs_only P (bind p f).
Proof.
  intros Hp Hf. induction Hp as [a|e|ef k Hef _ IH]; cbn.
  - apply Hf.
  - constructor.
  - constructor; [exact Hef | exact IH].
Qed.

Lemma performs_only_try_except {A} (P : effect → Prop) (p : prog A) cls
    (h : exn → prog A) :
  performs_only P p → (∀ e, performs_only P (h e)) →
  performs_only P (try_except p cls h).
Proof.
  intros Hp Hh. induction Hp as [a|e|ef k Hef _ IH]; cbn.
  - constructor.
  - destruct (isinstance e cls); [apply Hh | constructor].
  - constructor; [exact Hef | exact IH].
Qed.

Lemma performs_only_call (P : effect → Prop) ef :
  P ef → performs_only P (call ef).
Proof.
  intros Hef. constructor; [exact Hef |].
  intros [v|e]; constructor.
Qed.

Lemma performs_only_of_outcome {A} (P : effect → Prop) (o : outcome A) :
  performs_only P (of_outcome o).
Proof. destruct o; constructor. Qed.

Lemma performs_only_weaken {A} (P Q : effect → Prop) (p : prog A) :
  (∀ ef, P ef → Q ef) → performs_only P p → performs_only Q p.
Proof.
  intros HPQ Hp. induction Hp; constructor; auto.
Qed.

Lemma home_performs : performs_only home_effect home.
Proof.
  unfold home. apply performs_only_try_except.
  - unfold home_body.
    do 4 (apply performs_only_bind;
          [apply performs_only_call; cbn; set_solver | intros ?]).
    apply performs_only_bind; [| intros conn; constructor].
    apply performs_only_call. cbn. by eexists _, _, _, _.
  - intros e. unfold home_handler.
    apply performs_only_bind;
      [apply performs_only_of_outcome | intros s; constructor].
Qed.

Lemma full_dispatch_request_performs (P : effect → Prop) error_page req :
  performs_only P home →
  performs_only P (full_dispatch_request error_page req).
Proof.
  intros Hhome. unfold full_dispatch_request.
  destruct (bool_decide (req_path req = "/")); [| constructor].
  destruct (bool_decide (req_method req = "GET")
            || bool_decide (req_method req = "HEAD")).
  - apply performs_only_bind;
      [exact Hhome | intros rv; apply performs_only_of_outcome].
  - destruct (bool_decide (req_method req = "OPTIONS")); constructor.
Qed.

Lemma wsgi_app_performs (P : effect → Prop) error_page req :
  performs_only P home → performs_only P (wsgi_app error_page req).
Proof.
  intros Hhome. apply performs_only_bind; [| intros resp; constructor].
  apply performs_only_try_except;
    [by apply full_dispatch_request_performs | intros e; constructor].
Qed.

Lemma home_effect_not_store ef : home_effect ef → is_store ef = false.
Proof. by destruct ef. Qed.

Lemma home_effect_not_RDS_DB ef : home_effect ef → ef ≠ LoadGlobal "RDS_DB".
Proof.
  destruct ef; cbn; try done. intros Hin [= ->].
  repeat (apply elem_of_cons in Hin as [Hin | Hin]; [discriminate |]).
  by apply elem_of_nil in Hin.
Qed.

(** ** Encoding *)

Lemma first_surrogates_None s i :
  first_surrogates s i = None ↔ utf8_encodable s = true.
Proof.
  revert i. induction s as [|c s IH]; intros i; cbn; [done |].
  destruct (is_surrogate c); cbn; [split; discriminate | apply IH].
Qed.

Lemma response_of_encodable rv :
  utf8_encodable rv = true →
  response_of rv
  = Returned {| status_code := 200; mimetype := "text/html"; text := rv |}.
Proof.
  intros Henc. unfold response_of.
  by rewrite (proj2 (first_surrogates_None rv 0%nat) Henc).
Qed.

Lemma response_of_unencodable rv :
  utf8_encodable rv = false →
  ∃ e, response_of rv = Raised e ∧ isinstance e "Exception" = true.
Proof.
  intros Henc. unfold response_of.
  destruct (first_surrogates rv 0) as [[[start c] last]|] eqn:Hrun.
  - by eexists.
  - apply first_surrogates_None in Hrun. congruence.
Qed.

Lemma response_of_returned rv resp :
  response_of rv = Returned resp →
  resp = {| status_code := 200; mimetype := "text/html"; text := rv |}.
Proof.
  unfold response_of.
  destruct (first_surrogates rv 0) as [[[start c] last]|]; [done |].
  by intros [= <-].
Qed.

Lemma utf8_encodable_app s1 s2 :
  utf8_encodable (s1 ++ s2) = utf8_encodable s1 && utf8_encodable s2.
Proof. apply forallb_app. Qed.

Lemma utf8_encodable_failure s :
  utf8_encodable (failure_prefix ++ s ++ lit "...") = utf8_encodable s.
Proof.
  rewrite !utf8_encodable_app.
  change (utf8_encodable failure_prefix) with true.
  change (utf8_encodable (lit "...")) with true.
  cbn [andb]. apply andb_true_r.
Qed.

Lemma utf8_encodable_success : utf8_encodable success_message = true.
Proof. reflexivity. Qed.

(** ** Running composed programs *)

Section RunFacts.
Context {W : Type} (mysql : effect → W → outcome value * W).

Lemma run_of_outcome {A} (o : outcome A) ns w :
  run mysql (of_outcome o) ns w = Result o ns w [].
Proof. by destruct o. Qed.

Lemma run_trace_performs {A} (P : effect → Prop) (p : prog A) ns w :
  performs_only P p → Forall (λ x, P x.1) (trace (run mysql p ns w)).
Proof.
  intros Hp. revert ns w.
  induction Hp as [a|e|ef k Hef _ IH]; intros ns w; cbn.
  - constructor.
  - constructor.
  - destruct (perform mysql ef ns w) as [[r ns'] w']. cbn.
    constructor; [exact Hef | apply IH].
Qed.

Lemma perform_globals ef ns w :
  is_store ef = false → (perform mysql ef ns w).1.2 = ns.
Proof.
  destruct ef; cbn; try discriminate; intros _.
  - by destruct (ns !! name).
  - by destruct (mysql _ w).
  - by destruct (mysql _ w).
  - by destruct (mysql _ w).
Qed.

(** A program without [StoreGlobal] leaves the namespace as it
    found it. *)
Lemma run_globals_after {A} (p : prog A) ns w :
  performs_only (λ ef, is_store ef = false) p →
  globals_after (run mysql p ns w) = ns.
Proof.
  intros Hp. revert ns w.
  induction Hp as [a|e|ef k Hef _ IH]; intros ns w; cbn; try done.
  pose proof (perform_globals ef ns w Hef) as Hns.
  destruct (perform mysql ef ns w) as [[r ns'] w']. cbn in *.
  by rewrite IH, Hns.
Qed.

(** Sequencing with a continuation that has no effects. *)
Lemma run_bind_pure {A B} (p : prog A) (f : A → prog B)
    (g : A → outcome B) ns w :
  (∀ a ns' w', run mysql (f a) ns' w' = Result (g a) ns' w' []) →
  run mysql (bind p f) ns w =
  let x := run mysql p ns w in
  Result (match res x with
          | Returned a => g a
          | Raised e => Raised e
          end) (globals_after x) (world_after x) (trace x).
Proof.
  intros Hf. revert ns w.
  induction p as [a|e|ef k IH]; intros ns w; cbn; try done.
  destruct (perform mysql ef ns w) as [[r ns'] w']. by rewrite IH.
Qed.

(** Handling with a handler that has no effects. *)
Lemma run_try_except_pure {A} (p : prog A) cls (h : exn → prog A)
    (g : exn → outcome A) ns w :
  (∀ e ns' w', run mysql (h e) ns' w' = Result (g e) ns' w' []) →
  run mysql (try_except p cls h) ns w =
  let x := run mysql p ns w in
  Result (match res x with
          | Returned a => Returned a
          | Raised e => if isinstance e cls then g e else Raised e
          end) (globals_after x) (world_after x) (trace x).
Proof.
  intros Hh. revert ns w. induction p as [a|e|ef k IH]; intros ns w; cbn.
  - done.
  - by destruct (isinstance e cls).
  - destruct (perform mysql ef ns w) as [[r ns'] w']. by rewrite IH.
Qed.

Lemma run_home_handler e ns w :
  run mysql (home_handler e) ns w = Result (handler_outcome e) ns w [].
Proof.
  unfold home_handler, handler_outcome, py_str, mbind, prog_bind.
  by destruct (str_outcome e).
Qed.

Lemma run_make_response rv ns w :
  run mysql (make_response rv) ns w = Result (response_of rv) ns w [].
Proof. apply run_of_outcome. Qed.

(** *** The body of the [try] *)

Lemma run_home_body ns w host user password port :
  ns !! "RDS_HOST" = Some host → ns !! "RDS_USER" = Some user →
  ns !! "RDS_PASS" = Some password → ns !! "RDS_PORT" = Some port →
  run mysql home_body ns w =
  let ef := connect_effect host user password port in
  Result (match (mysql ef w).1 with
          | Returned _ => Returned success_message
          | Raised e => Raised e
          end) ns (mysql ef w).2
         (home_loads host user password port ++ [(ef, (mysql ef w).1)]).
Proof.
  intros Hh Hu Hp Hpt. unfold home_body. cbn.
  rewrite Hh; cbn. rewrite Hu; cbn. rewrite Hp; cbn. rewrite Hpt; cbn.
  fold (connect_effect host user password port).
  by destruct (mysql _ w) as [[c|e] w'].
Qed.

Lemma run_home ns w host user password port :
  ns !! "RDS_HOST" = Some host → ns !! "RDS_USER" = Some user →
  ns !! "RDS_PASS" = Some password → ns !! "RDS_PORT" = Some port →
  run mysql home ns w =
  let ef := connect_effect host user password port in
  Result (home_outcome (mysql ef w).1) ns (mysql ef w).2
         (home_loads host user password port ++ [(ef, (mysql ef w).1)]).
Proof.
  intros Hh Hu Hp Hpt. unfold home.
  rewrite (run_try_except_pure _ _ _ handler_outcome)
    by apply run_home_handler.
  rewrite (run_home_body ns w host user password port Hh Hu Hp Hpt).
  cbn. f_equal. by destruct (mysql _ w).1.
Qed.

(** In any namespace, [home] does to the network and to the namespace
    what the body of its [try] does. *)
Lemma run_home_trace ns w :
  trace (run mysql home ns w) = trace (run mysql home_body ns w)
  ∧ world_after (run mysql home ns w) = world_after (run mysql home_body ns w).
Proof.
  unfold home.
  by rewrite (run_try_except_pure _ _ _ handler_outcome)
    by apply run_home_handler.
Qed.
End RunFacts.

(** ** The module namespace *)

Lemma module_globals_RDS_HOST environ :
  module_globals environ !! "RDS_HOST"
  = Some (VStr (environ_get environ "RDS_HOST" default_host)).
Proof. unfold module_globals. by simplify_map_eq. Qed.

Lemma module_globals_RDS_USER environ :
  module_globals environ !! "RDS_USER" = Some (VStr (lit "admin")).
Proof. unfold module_globals. by simplify_map_eq. Qed.

Lemma module_globals_RDS_PASS environ :
  module_globals environ !! "RDS_PASS" = Some (VStr (lit "MyDBPass123!")).
Proof. unfold module_globals. by simplify_map_eq. Qed.

Lemma module_globals_RDS_PORT environ :
  module_globals environ !! "RDS_PORT" = Some (VInt 3306).
Proof. unfold module_globals. by simplify_map_eq. Qed.

(** ** One request *)

Section RequestFacts.
Context (error_page : Z → list N).
Context {W : Type} (mysql : effect → W → outcome value * W).

Lemma full_dispatch_request_routed req :
  routed_to_home req = true →
  full_dispatch_request error_page req = (rv ← home; make_response rv).
Proof.
  unfold routed_to_home, full_dispatch_request.
  destruct (bool_decide (req_path req = "/")); [| done].
  by destruct (bool_decide (req_method req = "GET")
               || bool_decide (req_method req = "HEAD")).
Qed.

Lemma routed_get_root req :
  req_method req = "GET" → req_path req = "/" → routed_to_home req = true.
Proof. intros Hm Hp. unfold routed_to_home. by rewrite Hm, Hp. Qed.

Lemma run_home_module environ w :
  run mysql home (module_globals environ) w =
  Result (home_outcome (mysql (probe environ) w).1)
         (module_globals environ) (mysql (probe environ) w).2
         (probe_loads environ
            ++ [(probe environ, (mysql (probe environ) w).1)]).
Proof.
  apply run_home; auto using module_globals_RDS_HOST,
    module_globals_RDS_USER, module_globals_RDS_PASS,
    module_globals_RDS_PORT.
Qed.

(** A routed request, up to the removal of the body for HEAD. *)
Lemma run_try_dispatch_routed req ns w :
  routed_to_home req = true →
  run mysql (try_except (full_dispatch_request error_page req) "Exception"
               (λ _, Ret (http_error error_page 500))) ns w =
  let x := run mysql home ns w in
  Result (finalize error_page (res x)) (globals_after x) (world_after x)
         (trace x).
Proof.
  intros Hroute.
  rewrite (run_try_except_pure _ _ _ _
             (λ _, Returned (http_error error_page 500))) by done.
  rewrite (full_dispatch_request_routed _ Hroute).
  unfold mbind, prog_bind.
  rewrite (run_bind_pure _ _ _ response_of) by apply run_make_response.
  reflexivity.
Qed.

Lemma run_wsgi_app_get_root req environ w :
  req_method req = "GET" → req_path req = "/" →
  run mysql (wsgi_app error_page req) (module_globals environ) w =
  Result (wsgi_outcome error_page (mysql (probe environ) w).1)
         (module_globals environ) (mysql (probe environ) w).2
         (probe_loads environ
            ++ [(probe environ, (mysql (probe environ) w).1)]).
Proof.
  intros Hm Hp. unfold wsgi_app, mbind, prog_bind.
  rewrite (run_bind_pure _ _ _
             (λ resp, Returned
                (if bool_decide (req_method req = "HEAD")
                 then without_body resp else resp))) by done.
  rewrite (run_try_dispatch_routed _ _ _ (routed_get_root _ Hm Hp)).
  rewrite run_home_module. cbn [res globals_after world_after trace].
  rewrite Hm. unfold wsgi_outcome. f_equal.
  by destruct (finalize _ _).
Qed.

(** The outcome recorded for a connect in the trace of a GET / is the
    outcome of the connect call. *)
Lemma connect_in_trace environ w kwargs r :
  (MySQLConnect kwargs, r)
    ∈ probe_loads environ ++ [(probe environ, (mysql (probe environ) w).1)] →
  MySQLConnect kwargs = probe environ ∧ r = (mysql (probe environ) w).1.
Proof.
  rewrite elem_of_app. intros [Hin | Hin].
  - unfold probe_loads, home_loads in Hin.
    repeat (apply elem_of_cons in Hin as [Hin | Hin]; [discriminate |]).
    by apply elem_of_nil in Hin.
  - apply list_elem_of_singleton in Hin. by inversion Hin.
Qed.
End RequestFacts.

(** ** The request loop after a response *)

Lemma serve_cons_returned (error_page : Z → list N) {W : Type}
    (mysql : effect → W → outcome value * W) req reqs ns (w : W) resp :
  res (run mysql (wsgi_app error_page req) ns w) = Returned resp →
  serve error_page mysql (req :: reqs) ns w =
  let x := run mysql (wsgi_app error_page req) ns w in
  let s := serve error_page mysql reqs (globals_after x) (world_after x) in
  (Returned resp :: s.1.1, s.1.2, s.2).
Proof.
  intros Hres. cbn. rewrite Hres.
  by destruct (serve _ _ _ _ _) as [[rs ns'] w'].
Qed.

(** ** A GET / whose trace shows the connect call *)

Lemma get_root_connect_outcome (error_page : Z → list N) {W : Type}
    (mysql : effect → W → outcome value * W) req environ (w : W) kwargs r :
  req_method req = "GET" → req_path req = "/" →
  (MySQLConnect kwargs, r)
    ∈ trace (run mysql (wsgi_app error_page req) (module_globals environ) w) →
  MySQLConnect kwargs = probe environ
  ∧ res (run mysql home (module_globals environ) w) = home_outcome r
  ∧ run mysql (wsgi_app error_page req) (module_globals environ) w
    = Result (wsgi_outcome error_page r) (module_globals environ)
        (mysql (probe environ) w).2
        (probe_loads environ ++ [(probe environ, r)]).
Proof.
  intros Hm Hp Hin.
  rewrite (run_wsgi_app_get_root error_page mysql req environ w Hm Hp) in *.
  cbn [trace] in Hin. apply connect_in_trace in Hin as [Hk ->].
  split; [exact Hk |]. split; [| reflexivity].
  by rewrite run_home_module.
Qed.

(** The three ways a caught exception is answered. *)
Lemma wsgi_outcome_failure error_page e :
  isinstance e "Exception" = true → exc_str_raises e = None →
  utf8_encodable (take 50 (exc_str e)) = true →
  home_outcome (Raised e) = Returned (failure_message e)
  ∧ wsgi_outcome error_page (Raised e)
    = Returned {| status_code := 200; mimetype := "text/html";
                  text := failure_message e |}.
Proof.
  intros He Hstr Henc.
  assert (Hhome : home_outcome (Raised e) = Returned (failure_message e)).
  { cbn. rewrite He. unfold handler_outcome, str_outcome. by rewrite Hstr. }
  split; [exact Hhome |].
  unfold wsgi_outcome, finalize. rewrite Hhome.
  rewrite response_of_encodable; [done |].
  unfold failure_message, error_detail, slice_to.
  by rewrite utf8_encodable_failure.
Qed.

Lemma wsgi_outcome_unencodable error_page e :
  isinstance e "Exception" = true → exc_str_raises e = None →
  utf8_encodable (take 50 (exc_str e)) = false →
  wsgi_outcome error_page (Raised e) = Returned (http_error error_page 500).
Proof.
  intros He Hstr Henc. unfold wsgi_outcome, finalize. cbn.
  rewrite He. unfold handler_outcome, str_outcome. rewrite Hstr.
  destruct (response_of_unencodable
              (failure_prefix ++ slice_to 50 (exc_str e) ++ lit "..."))
    as (e' & -> & ->); [| done].
  unfold slice_to. by rewrite utf8_encodable_failure.
Qed.

Lemma wsgi_outcome_str_raises error_page e e' :
  isinstance e "Exception" = true → exc_str_raises e = Some e' →
  wsgi_outcome error_page (Raised e)
  = if isinstance e' "Exception" then Returned (http_error error_page 500)
    else Raised e'.
Proof.
  intros He Hstr. unfold wsgi_outcome, finalize. cbn.
  rewrite He. unfold handler_outcome, str_outcome. by rewrite Hstr.
Qed.

Lemma wsgi_outcome_returned error_page conn :
  wsgi_outcome error_page (Returned conn)
  = Returned {| status_code := 200; mimetype := "text/html";
                text := success_message |}.
Proof. reflexivity. Qed.

(** ** Concrete runs *)

Example home_connected :
  res (run scripted home (module_globals ∅) [Returned (VConn 1)])
  = Returned success_message.
Proof. reflexivity. Qed.

Example home_refused :
  res (run scripted home (module_globals ∅) [Raised refused])
  = Returned (failure_prefix
                ++ lit "2003: Can't connect to MySQL server on 'your-db-en"
                ++ lit "...").
Proof. vm_compute. reflexivity. Qed.

(** [except Exception] lets an interrupt through: it is no instance of
    [Exception]. *)
Example home_interrupted :
  res (run scripted home (module_globals ∅) [Raised KeyboardInterrupt])
  = Raised KeyboardInterrupt.
Proof. reflexivity. Qed.

(** What [str(e)] raises in the [except] block leaves [home], and the
    request is answered with the 500 page. *)
Example home_unprintable :
  res (run scripted home (module_globals ∅) [Raised unprintable])
  = Raised (TypeError (lit "__str__ returned non-string (type NoneType)"))
  ∧ res (run scripted (wsgi_app plain_page get_root) (module_globals ∅)
           [Raised unprintable])
    = Returned (http_error plain_page 500).
Proof. split; reflexivity. Qed.

Example encode_unresolved :
  response_of (failure_message unresolved)
  = Raised (UnicodeEncodeError 89 0xDCFF 89)
  ∧ exc_str (UnicodeEncodeError 89 0xDCFF 89)
    = lit ("'utf-8' codec can't encode character '\udcff' in position 89: "
           +:+ "surrogates not allowed").
Proof. split; vm_compute; reflexivity. Qed.

Example head_root_has_no_body :
  res (run scripted
         (wsgi_app plain_page
            {| req_method := "HEAD"; req_path := "/"; req_args := [];
               req_headers := []; req_data := [] |})
         (module_globals ∅) [Returned (VConn 1)])
  = Returned {| status_code := 200; mimetype := "text/html"; text := [] |}.
Proof. reflexivity. Qed.

Example serve_three :
  (serve plain_page scripted [get_root; get_root_with_parameters; get_root]
     (module_globals ∅)
     [Raised timed_out; Returned (VConn 1); Raised garbled]).1.1
  = [Returned {| status_code := 200; mimetype := "text/html";
                 text := failure_message timed_out |};
     Returned {| status_code := 200; mimetype := "text/html";
                 text := success_message |};
     Returned (http_error plain_page 500)].
Proof. vm_compute. reflexivity. Qed.

Example post_root_not_allowed :
  res (run scripted
         (wsgi_app plain_page
            {| req_method := "POST"; req_path := "/"; req_args := [];
               req_headers := []; req_data := [] |})
         (module_globals ∅) [])
  = Returned (http_error plain_page 405).
Proof. reflexivity. Qed.

(** ** Failure of the connection attempt *)

(** C1, as stated, fails.  With [RDS_HOST] set to a byte that is not
    UTF-8 the host is a lone surrogate.  When the connect call raises
    an error that names the host within its first 50 characters,
    [home] catches the error and returns the failure text, which Flask
    cannot encode: the request is answered with status 500, not 200. *)
Lemma failed_probe_undecodable_host :
  isinstance unresolved "Exception" = true
  ∧ trace (run scripted (wsgi_app plain_page get_root)
             (module_globals undecodable_environ) [Raised unresolved])
      !! 4%nat
    = Some (MySQLConnect undecodable_kwargs, Raised unresolved)
  ∧ res (run scripted (wsgi_app plain_page get_root)
           (module_globals undecodable_environ) [Raised unresolved])
    = Returned {| status_code := 500; mimetype := "text/html";
                  text := lit "<!" ++ plain_page 500 |}.
Proof. vm_compute. repeat split. Qed.

(** C1, amended.  When the connect call of a GET / raises an instance
    of [Exception], [home] catches it.  If [str()] of the exception
    returns a text whose first 50 characters can be encoded as UTF-8,
    [home] returns the failure text and the response has status 200
    and the type [text/html].  If these characters cannot be encoded,
    or if [str()] raises an instance of [Exception], the response has
    status 500.  After any response the request loop goes on to serve
    the requests that follow. *)
Theorem failed_probe_is_caught (error_page : Z → list N) {W : Type}
    (mysql : effect → W → outcome value * W) req environ (w : W) kwargs e :
  req_method req = "GET" → req_path req = "/" →
  (MySQLConnect kwargs, Raised e)
    ∈ trace (run mysql (wsgi_app error_page req) (module_globals environ) w) →
  isinstance e "Exception" = true →
  let x := run mysql (wsgi_app error_page req) (module_globals environ) w in
  (exc_str_raises e = None → utf8_encodable (take 50 (exc_str e)) = true →
     res (run mysql home (module_globals environ) w)
       = Returned (failure_prefix ++ take 50 (exc_str e) ++ lit "...")
     ∧ res x = Returned {| status_code := 200; mimetype := "text/html";
                           text := failure_prefix ++ take 50 (exc_str e)
                                     ++ lit "..." |})
  ∧ (exc_str_raises e = None → utf8_encodable (take 50 (exc_str e)) = false →
     res x = Returned {| status_code := 500; mimetype := "text/html";
                         text := lit "<!" ++ error_page 500 |})
  ∧ (∀ e', exc_str_raises e = Some e' → isinstance e' "Exception" = true →
     res x = Returned {| status_code := 500; mimetype := "text/html";
                         text := lit "<!" ++ error_page 500 |})
  ∧ (∀ resp reqs,
       res x = Returned resp →
       serve error_page mysql (req :: reqs) (module_globals environ) w =
       let s := serve error_page mysql reqs (module_globals environ)
                  (world_after x) in
       (Returned resp :: s.1.1, s.1.2, s.2)).
Proof.
  intros Hm Hp Hin He x. subst x.
  destruct (get_root_connect_outcome error_page mysql req environ w kwargs
              (Raised e) Hm Hp Hin) as (_ & Hhome & Hrun).
  split; [| split; [| split]].
  - intros Hstr Henc.
    destruct (wsgi_outcome_failure error_page e He Hstr Henc) as [Hh Hw].
    split; [by rewrite Hhome, Hh | by rewrite Hrun, Hw].
  - intros Hstr Henc.
    by rewrite Hrun, (wsgi_outcome_unencodable error_page e He Hstr Henc).
  - intros e' Hstr He'.
    by rewrite Hrun, (wsgi_outcome_str_raises error_page e e' He Hstr), He'.
  - intros resp reqs Hres.
    rewrite (serve_cons_returned error_page mysql req reqs _ w resp Hres).
    cbn zeta. by rewrite Hrun.
Qed.

Lemma failed_probe_is_caught_witness :
  res (run scripted (wsgi_app plain_page get_root) (module_globals ∅)
         [Raised refused])
  = Returned {| status_code := 200; mimetype := "text/html";
                text := failure_prefix ++ take 50 (exc_str refused)
                          ++ lit "..." |}.
Proof.
  refine (proj2 (proj1 (failed_probe_is_caught plain_page scripted get_root ∅
            [Raised refused] default_kwargs refused _ _ _ _) _ _)).
  - reflexivity.
  - reflexivity.
  - apply list_elem_of_lookup. exists 4%nat. vm_compute. reflexivity.
  - vm_compute. reflexivity.
  - reflexivity.
  - vm_compute. reflexivity.
Defined.

(** C3, as stated, fails.  The connect call raises an error whose text
    begins with two lone surrogates; the response has status 500 and
    its body is the error page, which does not start with the failure
    prefix. *)
Lemma failed_probe_garbled_text :
  isinstance garbled "Exception" = true
  ∧ trace (run scripted (wsgi_app plain_page get_root) (module_globals ∅)
             [Raised garbled]) !! 4%nat
    = Some (MySQLConnect default_kwargs, Raised garbled)
  ∧ res (run scripted (wsgi_app plain_page get_root) (module_globals ∅)
           [Raised garbled])
    = Returned {| status_code := 500; mimetype := "text/html";
                  text := lit "<!" ++ plain_page 500 |}
  ∧ ¬ failure_prefix `prefix_of` lit "<!" ++ plain_page 500.
Proof.
  vm_compute. repeat split. intros [k Hk]. discriminate.
Qed.

(** C3, amended.  When the connect call of a GET / raises an instance
    of [Exception] for which [str()] returns a text whose first 50
    characters can be encoded as UTF-8, the response has status 200
    and its body is the fixed prefix, then the first characters of
    that text, at most 50 of them, then three dots. *)
Theorem failed_probe_body (error_page : Z → list N) {W : Type}
    (mysql : effect → W → outcome value * W) req environ (w : W) kwargs e :
  req_method req = "GET" → req_path req = "/" →
  (MySQLConnect kwargs, Raised e)
    ∈ trace (run mysql (wsgi_app error_page req) (module_globals environ) w) →
  isinstance e "Exception" = true →
  exc_str_raises e = None → utf8_encodable (take 50 (exc_str e)) = true →
  ∃ resp detail,
    res (run mysql (wsgi_app error_page req) (module_globals environ) w)
      = Returned resp
    ∧ status_code resp = 200
    ∧ text resp
      = ([0x26A0%N; 0xFE0F%N]
           ++ lit " Backend is running but RDS connection failed: ")
          ++ detail ++ lit "..."
    ∧ detail = take 50 (exc_str e)
    ∧ detail `prefix_of` exc_str e
    ∧ (length detail ≤ 50)%nat.
Proof.
  intros Hm Hp Hin He Hstr Henc.
  destruct (get_root_connect_outcome error_page mysql req environ w kwargs
              (Raised e) Hm Hp Hin) as (_ & _ & Hrun).
  destruct (wsgi_outcome_failure error_page e He Hstr Henc) as [_ Hw].
  rewrite Hw in Hrun.
  eexists _, (take 50 (exc_str e)).
  split; [by rewrite Hrun |]. split; [reflexivity |].
  split; [reflexivity |]. split; [reflexivity |]. split.
  - apply prefix_take.
  - rewrite length_take. lia.
Qed.

Lemma failed_probe_body_witness :
  ∃ resp detail,
    res (run scripted (wsgi_app plain_page get_root) (module_globals ∅)
           [Raised refused]) = Returned resp
    ∧ status_code resp = 200
    ∧ text resp
      = ([0x26A0%N; 0xFE0F%N]
           ++ lit " Backend is running but RDS connection failed: ")
          ++ detail ++ lit "..."
    ∧ detail = take 50 (exc_str refused)
    ∧ detail `prefix_of` exc_str refused
    ∧ (length detail ≤ 50)%nat.
Proof.
  apply (failed_probe_body plain_page scripted get_root ∅ [Raised refused]
           default_kwargs refused).
  - reflexivity.
  - reflexivity.
  - apply list_elem_of_lookup. exists 4%nat. vm_compute. reflexivity.
  - vm_compute. reflexivity.
  - reflexivity.
  - vm_compute. reflexivity.
Defined.

(** C2, as stated, fails: a socket timeout has the string form
    [timed out]; the probe answers with the prefix, these 9 characters
    and the dots, so the error detail in the body has 9 characters,
    not 50. *)
Lemma error_detail_short_message :
  isinstance timed_out "Exception" = true
  ∧ res (run scripted (wsgi_app plain_page get_root) (module_globals ∅)
           [Raised timed_out])
    = Returned {| status_code := 200; mimetype := "text/html";
                  text := failure_prefix ++ lit "timed out" ++ lit "..." |}
  ∧ error_detail timed_out = lit "timed out"
  ∧ length (error_detail timed_out) ≠ 50%nat.
Proof. vm_compute. repeat split. discriminate. Qed.

(** C2, amended.  The error detail in the body of the failure message
    is the exception's string form cut after 50 characters: it is the
    first 50 characters of a text of 50 characters or more, and the
    whole text when that is shorter, so its length is the smaller of
    50 and the length of the text.  (The failure message is the body
    of the response when [str()] returns the text and the detail can
    be encoded as UTF-8.) *)
Theorem error_detail_length (error_page : Z → list N) {W : Type}
    (mysql : effect → W → outcome value * W) req environ (w : W) kwargs e :
  req_method req = "GET" → req_path req = "/" →
  (MySQLConnect kwargs, Raised e)
    ∈ trace (run mysql (wsgi_app error_page req) (module_globals environ) w) →
  isinstance e "Exception" = true →
  exc_str_raises e = None → utf8_encodable (take 50 (exc_str e)) = true →
  ∃ detail,
    res (run mysql (wsgi_app error_page req) (module_globals environ) w)
      = Returned {| status_code := 200; mimetype := "text/html";
                    text := failure_prefix ++ detail ++ lit "..." |}
    ∧ detail = take 50 (exc_str e)
    ∧ (∀ i, (i < 50)%nat → detail !! i = exc_str e !! i)
    ∧ length detail = Nat.min 50 (length (exc_str e))
    ∧ ((50 ≤ length (exc_str e))%nat → length detail = 50%nat)
    ∧ ((length (exc_str e) < 50)%nat → detail = exc_str e).
Proof.
  intros Hm Hp Hin He Hstr Henc.
  destruct (get_root_connect_outcome error_page mysql req environ w kwargs
              (Raised e) Hm Hp Hin) as (_ & _ & Hrun).
  destruct (wsgi_outcome_failure error_page e He Hstr Henc) as [_ Hw].
  rewrite Hw in Hrun.
  exists (take 50 (exc_str e)). split; [by rewrite Hrun |].
  split; [reflexivity |]. split.
  { intros i Hi. by apply lookup_take_lt. }
  rewrite length_take. split; [reflexivity |]. split.
  - lia.
  - intros Hlt. apply take_ge. lia.
Qed.

Lemma error_detail_length_witness :
  ∃ detail,
    res (run scripted (wsgi_app plain_page get_root) (module_globals ∅)
           [Raised refused])
      = Returned {| status_code := 200; mimetype := "text/html";
                    text := failure_prefix ++ detail ++ lit "..." |}
    ∧ detail = take 50 (exc_str refused)
    ∧ (∀ i, (i < 50)%nat → detail !! i = exc_str refused !! i)
    ∧ length detail = Nat.min 50 (length (exc_str refused))
    ∧ ((50 ≤ length (exc_str refused))%nat → length detail = 50%nat)
    ∧ ((length (exc_str refused) < 50)%nat → detail = exc_str refused).
Proof.
  apply (error_detail_length plain_page scripted get_root ∅ [Raised refused]
           default_kwargs refused).
  - reflexivity.
  - reflexivity.
  - apply list_elem_of_lookup. exists 4%nat. vm_compute. reflexivity.
  - vm_compute. reflexivity.
  - reflexivity.
  - vm_compute. reflexivity.
Defined.

(** ** Success of the connection attempt *)

Lemma success_message_text :
  success_message = 0x2705%N :: lit " Connected to RDS MySQL instance".
Proof. reflexivity. Qed.

(** C4. When the connect call of a GET / returns a connection, the
    response has status 200 and its body is U+2705 (the check mark)
    followed by [ Connected to RDS MySQL instance], and nothing else. *)
Theorem successful_probe_response (error_page : Z → list N) {W : Type}
    (mysql : effect → W → outcome value * W) req environ (w : W) kwargs conn :
  req_method req = "GET" → req_path req = "/" →
  (MySQLConnect kwargs, Returned conn)
    ∈ trace (run mysql (wsgi_app error_page req) (module_globals environ) w) →
  res (run mysql (wsgi_app error_page req) (module_globals environ) w)
  = Returned {| status_code := 200; mimetype := "text/html";
                text := 0x2705%N :: lit " Connected to RDS MySQL instance" |}.
Proof.
  intros Hm Hp Hin.
  destruct (get_root_connect_outcome error_page mysql req environ w kwargs
              (Returned conn) Hm Hp Hin) as (_ & _ & Hrun).
  by rewrite Hrun.
Qed.

Lemma successful_probe_response_witness :
  res (run scripted (wsgi_app plain_page get_root) (module_globals ∅)
         [Returned (VConn 1)])
  = Returned {| status_code := 200; mimetype := "text/html";
                text := 0x2705%N :: lit " Connected to RDS MySQL instance" |}.
Proof.
  apply (successful_probe_response plain_page scripted get_root ∅
           [Returned (VConn 1)] default_kwargs (VConn 1)).
  - reflexivity.
  - reflexivity.
  - apply list_elem_of_lookup. exists 4%nat. vm_compute. reflexivity.
Defined.

(** ** The connection target *)

Lemma db_events_probe environ r :
  db_events (probe_loads environ ++ [(probe environ, r)])
  = [(probe environ, r)].
Proof. reflexivity. Qed.

(** C5. The connect call of [home] gets exactly four keyword
    arguments.  [host] is the value of [RDS_HOST] in the environment
    the module was imported in when there is one, and the literal
    [your-db-endpoint.rds.amazonaws.com] otherwise; [user], [password]
    and [port] are the literals [admin], [MyDBPass123!] and 3306
    whatever the environment holds. *)
Theorem connection_target (environ : gmap string (list N)) {W : Type}
    (mysql : effect → W → outcome value * W) (w : W) :
  (db_events (trace (run mysql home (module_globals environ) w))).*1
  = [MySQLConnect
       {[ "host" := VStr (default
                            (lit "your-db-endpoint.rds.amazonaws.com")
                            (environ !! "RDS_HOST"));
          "user" := VStr (lit "admin");
          "password" := VStr (lit "MyDBPass123!");
          "port" := VInt 3306 ]}]
  ∧ (∀ h,
      (db_events (trace (run mysql home
         (module_globals (<["RDS_HOST" := h]> environ)) w))).*1
      = [MySQLConnect
           {[ "host" := VStr h;
              "user" := VStr (lit "admin");
              "password" := VStr (lit "MyDBPass123!");
              "port" := VInt 3306 ]}])
  ∧ (db_events (trace (run mysql home
       (module_globals (delete "RDS_HOST" environ)) w))).*1
    = [MySQLConnect
         {[ "host" := VStr (lit "your-db-endpoint.rds.amazonaws.com");
            "user" := VStr (lit "admin");
            "password" := VStr (lit "MyDBPass123!");
            "port" := VInt 3306 ]}].
Proof.
  repeat split; [| intros h |];
    rewrite run_home_module; cbn [trace]; rewrite db_events_probe;
    cbn [fmap list_fmap fst]; unfold probe, connect_effect, environ_get.
  - reflexivity.
  - by rewrite lookup_insert_eq.
  - by rewrite lookup_delete_eq.
Qed.

(** ** Every response to GET / *)




(** ** Module state across requests *)

Lemma wsgi_app_globals_after (error_page : Z → list N) {W : Type}
    (mysql : effect → W → outcome value * W) req ns (w : W) :
  globals_after (run mysql (wsgi_app error_page req) ns w) = ns.
Proof.
  apply run_globals_after, wsgi_app_performs.
  eapply performs_only_weaken; [apply home_effect_not_store |].
  apply home_performs.
Qed.

Lemma serve_globals (error_page : Z → list N) {W : Type}
    (mysql : effect → W → outcome value * W) reqs ns (w : W) :
  (serve error_page mysql reqs ns w).1.2 = ns.
Proof.
  revert w. induction reqs as [|req reqs IH]; intros w; cbn; [done |].
  pose proof (wsgi_app_globals_after error_page mysql req ns w) as Hns.
  destruct (res (run mysql (wsgi_app error_page req) ns w)); [| done].
  rewrite Hns. specialize (IH (world_after (run mysql (wsgi_app error_page req) ns w))).
  by destruct (serve _ _ _ _ _) as [[rs ns'] w'].
Qed.

Lemma serve_app (error_page : Z → list N) {W : Type}
    (mysql : effect → W → outcome value * W) reqs1 reqs2 ns (w : W) :
  forallb is_returned (serve error_page mysql reqs1 ns w).1.1 = true →
  serve error_page mysql (reqs1 ++ reqs2) ns w =
  (let s1 := serve error_page mysql reqs1 ns w in
   let s2 := serve error_page mysql reqs2 s1.1.2 s1.2 in
   (s1.1.1 ++ s2.1.1, s2.1.2, s2.2))
  ∧ length (serve error_page mysql reqs1 ns w).1.1 = length reqs1.
Proof.
  revert ns w. induction reqs1 as [|req reqs1 IH]; intros ns w; cbn.
  - intros _. by destruct (serve _ _ _ _ _) as [[rs ns'] w'].
  - destruct (res (run mysql (wsgi_app error_page req) ns w)) as [resp|e];
      [| discriminate].
    specialize (IH (globals_after (run mysql (wsgi_app error_page req) ns w))
                  (world_after (run mysql (wsgi_app error_page req) ns w))).
    destruct (serve error_page mysql reqs1 _ _) as [[rs1 ns1] w1]. cbn in *.
    intros Hok. destruct (IH Hok) as [-> Hlen].
    destruct (serve error_page mysql reqs2 _ _) as [[rs2 ns2] w2]. cbn.
    by rewrite Hlen.
Qed.

(** C7. No request changes the module namespace: it is after a
    request, and after any number of requests, what it was before.
    The response to the request that follows [n] served requests is
    the one the handler gives in that same namespace, in the state the
    network is in by then, exactly as for a first request. *)
Theorem requests_are_stateless (error_page : Z → list N) {W : Type}
    (mysql : effect → W → outcome value * W) :
  (∀ req ns w, globals_after (run mysql (wsgi_app error_page req) ns w) = ns)
  ∧ (∀ reqs ns w, (serve error_page mysql reqs ns w).1.2 = ns)
  ∧ (∀ reqs req reqs' ns w,
       let s := serve error_page mysql reqs ns w in
       forallb is_returned s.1.1 = true →
       (serve error_page mysql (reqs ++ req :: reqs') ns w).1.1 !! length reqs
       = Some (res (run mysql (wsgi_app error_page req) ns s.2))).
Proof.
  split; [| split].
  - intros req ns w. apply wsgi_app_globals_after.
  - intros reqs ns w. apply serve_globals.
  - intros reqs req reqs' ns w s Hok. subst s.
    destruct (serve_app error_page mysql reqs (req :: reqs') ns w Hok)
      as [-> Hlen].
    cbn zeta. cbn [fst snd]. rewrite serve_globals.
    rewrite lookup_app_r by lia. rewrite Hlen, Nat.sub_diag.
    cbn [serve].
    set (x := run mysql (wsgi_app error_page req) ns _).
    destruct (res x) as [resp|e]; [| done].
    by destruct (serve error_page mysql reqs' (globals_after x)
                   (world_after x)) as [[rs ns'] w'].
Qed.

Lemma requests_are_stateless_witness :
  (serve plain_page scripted ([get_root] ++ get_root_with_parameters :: [])
     (module_globals ∅) [Raised timed_out; Returned (VConn 1)]).1.1 !! 1%nat
  = Some (res (run scripted (wsgi_app plain_page get_root_with_parameters)
                 (module_globals ∅) [Returned (VConn 1)])).
Proof.
  apply (proj2 (proj2 (requests_are_stateless plain_page scripted))
           [get_root] get_root_with_parameters [] (module_globals ∅)
           [Raised timed_out; Returned (VConn 1)]).
  vm_compute. reflexivity.
Defined.

(** ** The request carries nothing the handler reads *)

Lemma wsgi_app_get_root_eq (error_page : Z → list N) req1 req2 :
  req_method req1 = "GET" → req_path req1 = "/" →
  req_method req2 = "GET" → req_path req2 = "/" →
  wsgi_app error_page req1 = wsgi_app error_page req2.
Proof.
  intros Hm1 Hp1 Hm2 Hp2. unfold wsgi_app.
  rewrite !full_dispatch_request_routed by by apply routed_get_root.
  by rewrite Hm1, Hm2.
Qed.

Lemma wsgi_outcome_same error_page r1 r2 :
  same_outcome r1 r2 → catchable r1 → catchable r2 →
  wsgi_outcome error_page r1 = wsgi_outcome error_page r2.
Proof.
  destruct r1 as [c1|e1], r2 as [c2|e2]; cbn; try done.
  intros Hstr He1 He2. unfold wsgi_outcome. cbn.
  rewrite He1, He2. unfold handler_outcome. by rewrite Hstr.
Qed.

(** C8. Two GET / requests are dispatched to the same program, the
    call of [home] with no argument, whatever query string, headers
    and body they carry; when their connect calls have the same
    outcome (a connection for both, or for both an exception with the
    same string form that [home] catches), the responses are equal. *)
Theorem request_parameters_unused (error_page : Z → list N) {W : Type}
    (mysql : effect → W → outcome value * W)
    req1 req2 environ1 environ2 (w1 w2 : W) kwargs1 kwargs2 r1 r2 :
  req_method req1 = "GET" → req_path req1 = "/" →
  req_method req2 = "GET" → req_path req2 = "/" →
  (MySQLConnect kwargs1, r1)
    ∈ trace (run mysql (wsgi_app error_page req1) (module_globals environ1) w1) →
  (MySQLConnect kwargs2, r2)
    ∈ trace (run mysql (wsgi_app error_page req2) (module_globals environ2) w2) →
  same_outcome r1 r2 → catchable r1 → catchable r2 →
  wsgi_app error_page req1 = wsgi_app error_page req2
  ∧ res (run mysql (wsgi_app error_page req1) (module_globals environ1) w1)
    = res (run mysql (wsgi_app error_page req2) (module_globals environ2) w2).
Proof.
  intros Hm1 Hp1 Hm2 Hp2 Hin1 Hin2 Hsame Hc1 Hc2.
  split; [by apply wsgi_app_get_root_eq |].
  destruct (get_root_connect_outcome error_page mysql req1 environ1 w1
              kwargs1 r1 Hm1 Hp1 Hin1) as (_ & _ & ->).
  destruct (get_root_connect_outcome error_page mysql req2 environ2 w2
              kwargs2 r2 Hm2 Hp2 Hin2) as (_ & _ & ->).
  cbn [res]. by apply wsgi_outcome_same.
Qed.

Lemma request_parameters_unused_witness :
  wsgi_app plain_page get_root = wsgi_app plain_page get_root_with_parameters
  ∧ res (run scripted (wsgi_app plain_page get_root) (module_globals ∅)
           [Raised (InterfaceError (lit "timed out"))])
    = res (run scripted (wsgi_app plain_page get_root_with_parameters)
             (module_globals ∅) [Raised timed_out]).
Proof.
  apply (request_parameters_unused plain_page scripted
           get_root get_root_with_parameters ∅ ∅
           [Raised (InterfaceError (lit "timed out"))] [Raised timed_out]
           default_kwargs default_kwargs
           (Raised (InterfaceError (lit "timed out"))) (Raised timed_out)).
  - reflexivity.
  - reflexivity.
  - reflexivity.
  - reflexivity.
  - apply list_elem_of_lookup. exists 4%nat. vm_compute. reflexivity.
  - apply list_elem_of_lookup. exists 4%nat. vm_compute. reflexivity.
  - vm_compute. reflexivity.
  - vm_compute. reflexivity.
  - vm_compute. reflexivity.
Defined.

(** ** Database operations of a request *)

Section TraceFacts.
Context (error_page : Z → list N).
Context {W : Type} (mysql : effect → W → outcome value * W).

Lemma home_db_events ns w :
  db_events (trace (run mysql home ns w)) = []
  ∨ ∃ kwargs r, db_events (trace (run mysql home ns w))
                = [(MySQLConnect kwargs, r)].
Proof.
  rewrite (proj1 (run_home_trace mysql ns w)). unfold home_body. cbn.
  destruct (ns !! "RDS_HOST") as [host|]; cbn; [| by left].
  destruct (ns !! "RDS_USER") as [user|]; cbn; [| by left].
  destruct (ns !! "RDS_PASS") as [password|]; cbn; [| by left].
  destruct (ns !! "RDS_PORT") as [port|]; cbn; [| by left].
  right. destruct (mysql _ w) as [r w'] eqn:Hr. cbn.
  eexists _, r. by destruct r.
Qed.

(** The trace and the effect on the network of a request are those of
    [home] when the request is routed to it, and empty otherwise. *)
Lemma run_wsgi_app_effects req ns w :
  let x := run mysql (wsgi_app error_page req) ns w in
  if routed_to_home req
  then trace x = trace (run mysql home ns w)
       ∧ world_after x = world_after (run mysql home ns w)
  else trace x = [] ∧ world_after x = w.
Proof.
  intros x. subst x. unfold wsgi_app, mbind, prog_bind.
  rewrite (run_bind_pure _ _ _
             (λ resp, Returned
                (if bool_decide (req_method req = "HEAD")
                 then without_body resp else resp))) by done.
  cbn [trace world_after].
  destruct (routed_to_home req) eqn:Hroute.
  - by rewrite (run_try_dispatch_routed error_page mysql req ns w Hroute).
  - rewrite (run_try_except_pure _ _ _ _
               (λ _, Returned (http_error error_page 500))) by done.
    cbn [trace world_after].
    unfold routed_to_home in Hroute. unfold full_dispatch_request.
    destruct (bool_decide (req_path req = "/")); cbn [andb] in Hroute;
      [| done].
    rewrite Hroute.
    by destruct (bool_decide (req_method req = "OPTIONS")).
Qed.

Lemma wsgi_app_trace req ns w :
  trace (run mysql (wsgi_app error_page req) ns w) = []
  ∨ trace (run mysql (wsgi_app error_page req) ns w)
    = trace (run mysql home ns w).
Proof.
  pose proof (run_wsgi_app_effects req ns w) as H. cbn zeta in H.
  destruct (routed_to_home req); [right | left]; apply H.
Qed.

Lemma wsgi_app_trace_effects req ns w x :
  x ∈ trace (run mysql (wsgi_app error_page req) ns w) → home_effect x.1.
Proof.
  intros Hin.
  pose proof (run_trace_performs mysql home_effect (wsgi_app error_page req)
                ns w (wsgi_app_performs _ _ _ home_performs)) as Hall.
  rewrite Forall_forall in Hall. by apply Hall.
Qed.

Lemma elem_of_db_events x t :
  x ∈ t → is_db_effect x.1 = true → x ∈ db_events t.
Proof.
  intros Hin Hdb. apply list_elem_of_In, filter_In.
  split; [by apply list_elem_of_In | exact Hdb].
Qed.
End TraceFacts.

(** C9. In the trace of a request there is no statement executed on a
    connection and no other operation on one: when the connect call
    returned a connection, that call is the only database operation
    of the request. *)
Theorem connection_is_never_used (error_page : Z → list N) {W : Type}
    (mysql : effect → W → outcome value * W) req ns (w : W) :
  let t := trace (run mysql (wsgi_app error_page req) ns w) in
  (∀ conn operation r, (CursorExecute conn operation, r) ∉ t)
  ∧ (∀ conn r, (ConnectionClose conn, r) ∉ t)
  ∧ (∀ kwargs conn,
       (MySQLConnect kwargs, Returned conn) ∈ t →
       db_events t = [(MySQLConnect kwargs, Returned conn)]).
Proof.
  intros t. subst t. split; [| split].
  - intros conn operation r Hin.
    by apply (wsgi_app_trace_effects error_page mysql) in Hin.
  - intros conn r Hin.
    by apply (wsgi_app_trace_effects error_page mysql) in Hin.
  - intros kwargs conn Hin.
    pose proof (elem_of_db_events _ _ Hin eq_refl) as Hdb.
    destruct (wsgi_app_trace error_page mysql req ns w) as [Ht | Ht];
      rewrite Ht in *.
    + by apply elem_of_nil in Hin.
    + destruct (home_db_events mysql ns w) as [Hd | (kw & r & Hd)];
        rewrite Hd in *.
      * by apply elem_of_nil in Hdb.
      * apply list_elem_of_singleton in Hdb. by rewrite Hdb.
Qed.

Lemma connection_is_never_used_witness :
  db_events (trace (run scripted (wsgi_app plain_page get_root)
                      (module_globals ∅) [Returned (VConn 1)]))
  = [(MySQLConnect default_kwargs, Returned (VConn 1))].
Proof.
  apply (proj2 (proj2 (connection_is_never_used plain_page scripted get_root
                         (module_globals ∅) [Returned (VConn 1)]))).
  apply list_elem_of_lookup. exists 4%nat. vm_compute. reflexivity.
Defined.

(** ** The database name *)

Section FrameFacts.
Context {W : Type} (mysql : effect → W → outcome value * W).

Lemma perform_insert_unread name v ef ns w :
  ef ≠ LoadGlobal name → is_store ef = false →
  perform mysql ef (<[name := v]> ns) w
  = ((perform mysql ef ns w).1.1, <[name := v]> ns, (perform mysql ef ns w).2).
Proof.
  intros Hne Hst. destruct ef as [n| | | |]; cbn in *; try done.
  - assert (name ≠ n) by congruence.
    rewrite lookup_insert_ne by done. by destruct (ns !! n).
  - by destruct (mysql _ w).
  - by destruct (mysql _ w).
  - by destruct (mysql _ w).
Qed.

(** Rebinding a global that a program neither reads nor writes changes
    nothing the program does. *)
Lemma run_insert_unread {A} (p : prog A) name v ns w :
  performs_only (λ ef, ef ≠ LoadGlobal name ∧ is_store ef = false) p →
  run mysql p (<[name := v]> ns) w
  = Result (res (run mysql p ns w))
           (<[name := v]> (globals_after (run mysql p ns w)))
           (world_after (run mysql p ns w)) (trace (run mysql p ns w)).
Proof.
  intros Hp. revert ns w.
  induction Hp as [a|e|ef k [Hne Hst] _ IH]; intros ns w; cbn; try done.
  rewrite (perform_insert_unread name v ef ns w Hne Hst).
  pose proof (perform_globals mysql ef ns w Hst) as Hns.
  destruct (perform mysql ef ns w) as [[r ns'] w']. cbn in *. subst ns'.
  by rewrite IH.
Qed.

Lemma wsgi_app_ignores_RDS_DB error_page req :
  performs_only (λ ef, ef ≠ LoadGlobal "RDS_DB" ∧ is_store ef = false)
    (wsgi_app error_page req).
Proof.
  apply wsgi_app_performs.
  eapply performs_only_weaken; [| apply home_performs].
  intros ef Hef. split.
  - by apply home_effect_not_RDS_DB.
  - by apply home_effect_not_store.
Qed.
End FrameFacts.

Lemma connect_kwargs_keys (host user password port : value) :
  dom ({[ "host" := host; "user" := user;
          "password" := password; "port" := port ]} : gmap string value)
  = ({[ "host"; "user"; "password"; "port" ]} : gset string).
Proof. rewrite !dom_insert_L, dom_singleton_L. set_solver. Qed.

(** C10. The connect call gets the keyword arguments [host], [user],
    [password] and [port] and no others, so no [database]; the handler
    never reads the global [RDS_DB]; and with any other value bound to
    [RDS_DB] a request has the same response, the same trace and the
    same effect on the network. *)
Theorem database_name_unused (error_page : Z → list N) {W : Type}
    (mysql : effect → W → outcome value * W) req ns (w : W) v :
  let x := run mysql (wsgi_app error_page req) ns w in
  let x' := run mysql (wsgi_app error_page req) (<["RDS_DB" := v]> ns) w in
  (∀ kwargs r,
     (MySQLConnect kwargs, r) ∈ trace x →
     dom kwargs = ({[ "host"; "user"; "password"; "port" ]} : gset string)
     ∧ kwargs !! "database" = None)
  ∧ (∀ r, (LoadGlobal "RDS_DB", r) ∉ trace x)
  ∧ res x' = res x ∧ trace x' = trace x ∧ world_after x' = world_after x.
Proof.
  intros x x'. subst x x'.
  rewrite (run_insert_unread mysql _ "RDS_DB" v ns w
             (wsgi_app_ignores_RDS_DB error_page req)).
  cbn [res trace world_after]. split; [| split; [| done]].
  - intros kwargs r Hin.
    apply (wsgi_app_trace_effects error_page mysql) in Hin
      as (host & user & password & port & ->).
    split; [apply connect_kwargs_keys | by simplify_map_eq].
  - intros r Hin. apply (wsgi_app_trace_effects error_page mysql) in Hin.
    by apply home_effect_not_RDS_DB in Hin.
Qed.

Lemma database_name_unused_witness :
  dom default_kwargs = ({[ "host"; "user"; "password"; "port" ]} : gset string)
  ∧ default_kwargs !! "database" = None.
Proof.
  apply (proj1 (database_name_unused plain_page scripted get_root
                  (module_globals ∅) [Returned (VConn 1)] (VStr (lit "prod")))
           default_kwargs (Returned (VConn 1))).
  apply list_elem_of_lookup. exists 4%nat. vm_compute. reflexivity.
Defined.

(** * Further properties of the handler and of the application *)

(** ** What [home] comes to *)

(** X1. In the namespace of the imported module [home] makes one
    connect call, and what it comes to is decided by the outcome of
    that call alone.  A connection: it returns the success message.
    An instance of [Exception]: it returns the failure message with
    the first 50 characters of the text [str()] returns, or lets out
    what [str()] raises, since that call is made in the [except]
    block.  Anything else the connect call raises passes through. *)
Theorem home_outcomes (environ : gmap string (list N)) {W : Type}
    (mysql : effect → W → outcome value * W) (w : W) :
  let x := run mysql home (module_globals environ) w in
  ∃ kwargs r,
    db_events (trace x) = [(MySQLConnect kwargs, r)]
    ∧ res x
      = match r with
        | Returned _ =>
            Returned (0x2705%N :: lit " Connected to RDS MySQL instance")
        | Raised e =>
            if isinstance e "Exception" then
              match exc_str_raises e with
              | None =>
                  Returned
                    (([0x26A0%N; 0xFE0F%N]
                        ++ lit " Backend is running but RDS connection failed: ")
                       ++ take 50 (exc_str e) ++ lit "...")
              | Some e' => Raised e'
              end
            else Raised e
        end.
Proof.
  intros x. subst x. rewrite run_home_module. cbn [res trace].
  rewrite db_events_probe. unfold probe at 1, connect_effect.
  eexists _, _. split; [reflexivity |].
  destruct (mysql (probe environ) w).1 as [c|e]; cbn; [done |].
  destruct (isinstance e "Exception"); [| done].
  unfold handler_outcome, str_outcome.
  by destruct (exc_str_raises e).
Qed.

(** ** What the body of a response tells *)

Lemma length_failure_prefix : length failure_prefix = 49%nat.
Proof. reflexivity. Qed.

Lemma length_success_message : length success_message = 33%nat.
Proof. reflexivity. Qed.

Lemma success_is_no_failure s :
  success_message ≠ failure_prefix ++ s.
Proof.
  unfold success_message, failure_prefix. cbn [app]. discriminate.
Qed.

Lemma success_is_no_error_page error_page code :
  success_message ≠ text (http_error error_page code).
Proof. unfold success_message, http_error. cbn. discriminate. Qed.

(** A response to a caught or escaped exception is never the success
    message. *)
Lemma wsgi_outcome_raised_text error_page e resp :
  wsgi_outcome error_page (Raised e) = Returned resp →
  text resp ≠ success_message.
Proof.
  unfold wsgi_outcome, finalize. cbn.
  assert (H500 : text (http_error error_page 500) ≠ success_message).
  { intros Heq. by destruct (success_is_no_error_page error_page 500). }
  destruct (isinstance e "Exception") eqn:He; [| by rewrite He].
  unfold handler_outcome. destruct (str_outcome e) as [s|e'].
  - destruct (response_of _) as [resp'|e'] eqn:Hresp.
    + apply response_of_returned in Hresp as ->. intros [= <-]. cbn.
      intros Heq. by destruct (success_is_no_failure (slice_to 50 s ++ lit "...")).
    + destruct (isinstance e' "Exception"); [| done]. by intros [= <-].
  - destruct (isinstance e' "Exception"); [| done]. by intros [= <-].
Qed.

(** X3. The status is 200 either way, but the body of the response to
    a GET / is the success message exactly when the connect call
    returned a connection: no error text, whatever it says, makes a
    failed probe read as a successful one. *)
Theorem body_tells_outcome (error_page : Z → list N) {W : Type}
    (mysql : effect → W → outcome value * W) req environ (w : W)
    kwargs r resp :
  req_method req = "GET" → req_path req = "/" →
  (MySQLConnect kwargs, r)
    ∈ trace (run mysql (wsgi_app error_page req) (module_globals environ) w) →
  res (run mysql (wsgi_app error_page req) (module_globals environ) w)
    = Returned resp →
  text resp = success_message ↔ is_returned r = true.
Proof.
  intros Hm Hp Hin.
  destruct (get_root_connect_outcome error_page mysql req environ w kwargs r
              Hm Hp Hin) as (_ & _ & ->).
  cbn [res]. destruct r as [c|e].
  - rewrite wsgi_outcome_returned. by intros [= <-].
  - intros Hres. apply wsgi_outcome_raised_text in Hres. by cbn.
Qed.

Lemma body_tells_outcome_witness :
  text {| status_code := 200; mimetype := "text/html";
          text := failure_message
                    (InterfaceError
                       (0x2705%N :: lit " Connected to RDS MySQL instance")) |}
  = success_message
  ↔ is_returned
      (Raised (A := value)
         (InterfaceError (0x2705%N :: lit " Connected to RDS MySQL instance")))
    = true.
Proof.
  apply (body_tells_outcome plain_page scripted get_root ∅
           [Raised (InterfaceError
                      (0x2705%N :: lit " Connected to RDS MySQL instance"))]
           default_kwargs).
  - reflexivity.
  - reflexivity.
  - apply list_elem_of_lookup. exists 4%nat. vm_compute. reflexivity.
  - vm_compute. reflexivity.
Defined.


(** X5. The body of a response with status 200 to a GET / has 33
    characters when the connect call returned a connection, and 52
    more than the smaller of 50 and the length of the error text when
    the call raised: at most 102, however long the error text is. *)
Theorem response_body_bounded (error_page : Z → list N) {W : Type}
    (mysql : effect → W → outcome value * W) req environ (w : W)
    kwargs r resp :
  req_method req = "GET" → req_path req = "/" →
  (MySQLConnect kwargs, r)
    ∈ trace (run mysql (wsgi_app error_page req) (module_globals environ) w) →
  res (run mysql (wsgi_app error_page req) (module_globals environ) w)
    = Returned resp →
  status_code resp = 200 →
  length (text resp)
  = match r with
    | Returned _ => 33%nat
    | Raised e => (52 + Nat.min 50 (length (exc_str e)))%nat
    end
  ∧ (length (text resp) ≤ 102)%nat.
Proof.
  intros Hm Hp Hin.
  destruct (get_root_connect_outcome error_page mysql req environ w kwargs r
              Hm Hp Hin) as (_ & _ & ->).
  cbn [res]. destruct r as [c|e].
  - rewrite wsgi_outcome_returned. intros [= <-] _. cbn [text].
    rewrite length_success_message. split; [done | lia].
  - unfold wsgi_outcome, finalize, home_outcome.
    destruct (isinstance e "Exception") eqn:He; [| by rewrite He].
    unfold handler_outcome, str_outcome.
    destruct (exc_str_raises e) as [e'|].
    { destruct (isinstance e' "Exception"); [| done].
      by intros [= <-]. }
    destruct (response_of _) as [resp'|e'] eqn:Hresp.
    + apply response_of_returned in Hresp. intros Heq _.
      replace resp with resp' by congruence. rewrite Hresp. cbn [text].
      unfold slice_to.
      rewrite !length_app, length_failure_prefix, length_take.
      change (length (lit "...")) with 3%nat. lia.
    + destruct (isinstance e' "Exception"); [| done]. by intros [= <-].
Qed.

Lemma response_body_bounded_witness :
  length (text {| status_code := 200; mimetype := "text/html";
                  text := failure_message timed_out |})
  = (52 + Nat.min 50 (length (exc_str timed_out)))%nat
  ∧ (length (text {| status_code := 200; mimetype := "text/html";
                     text := failure_message timed_out |}) ≤ 102)%nat.
Proof.
  apply (response_body_bounded plain_page scripted get_root ∅
           [Raised timed_out] default_kwargs (Raised timed_out)).
  - reflexivity.
  - reflexivity.
  - apply list_elem_of_lookup. exists 4%nat. vm_compute. reflexivity.
  - vm_compute. reflexivity.
  - reflexivity.
Defined.

(** ** Which requests reach the database *)


(** ** A sequence of probes *)


